(** * ft_logging: colorized logging with context extraction

    A shallow embedding of [service.go] (package [ft_logging]) and the
    properties of its three logging operations.

    - Go strings are byte sequences: [string].
    - A slice [[]string] is [option (list string)]; [None] is the nil slice.
    - A [context.Context] interface value is [option Context]; [None] is the
      nil interface, and calling a method on it panics.  The contexts are
      those built by [context.Background] and [context.WithValue]; the
      dynamic values they carry are nil, strings, ints and bools.
    - The process-wide standard logger is a state: the list of records
      handed to [log.Print]/[log.Printf], oldest first.  The timestamp
      header and the final newline the standard logger adds to each record
      are outside this package and are not part of a record.
    - A run either returns or panics; both are outcomes of the monad [M]. *)

From Stdlib Require Import String Ascii List Bool Arith ZArith Lia DecimalString.
Import ListNotations.
Local Open Scope list_scope.
Local Open Scope string_scope.

(** ** Dynamic values ([any]) *)

(** The dynamic values a context may carry: the nil interface, and values
    of the Go types [string], [int] and [bool]. *)
Inductive any : Type :=
| AnyNil
| AnyString (s : string)
| AnyInt (z : Z)
| AnyBool (b : bool).

(** [value != nil] on an interface value. *)
Definition isNil (v : any) : bool :=
  match v with AnyNil => true | _ => false end.

(** [==] on interface values: equal dynamic type and equal value. *)
Definition any_eqb (a b : any) : bool :=
  match a, b with
  | AnyNil, AnyNil => true
  | AnyString s, AnyString t => String.eqb s t
  | AnyInt x, AnyInt y => Z.eqb x y
  | AnyBool x, AnyBool y => Bool.eqb x y
  | _, _ => false
  end.

Module Fmt.

(** Base-10 rendering of an integer. *)
Definition itoa (z : Z) : string := NilZero.string_of_int (Z.to_int z).

(** The name of the dynamic type, as [%T] and the bad-verb report print it. *)
Definition typeName (v : any) : string :=
  match v with
  | AnyNil => "<nil>"
  | AnyString _ => "string"
  | AnyInt _ => "int"
  | AnyBool _ => "bool"
  end.

(** The [%v] rendering of an operand. *)
Definition formatV (v : any) : string :=
  match v with
  | AnyNil => "<nil>"
  | AnyString s => s
  | AnyInt z => itoa z
  | AnyBool true => "true"
  | AnyBool false => "false"
  end.

(** [type=value], or [<nil>] for the nil interface. *)
Definition typedValue (v : any) : string :=
  match v with
  | AnyNil => "<nil>"
  | _ => typeName v ++ "=" ++ formatV v
  end.

(** [%!verb(type=value)]: the report for a verb the operand does not take. *)
Definition badVerb (verb : ascii) (v : any) : string :=
  "%!" ++ String verb ("(" ++ typedValue v ++ ")").

(** One operand under one verb. *)
Definition printArg (verb : ascii) (v : any) : string :=
  match verb with
  | "v"%char => formatV v
  | "s"%char => match v with AnyString s => s | _ => badVerb verb v end
  | _ => badVerb verb v
  end.

(** The report for operands left over when the format is exhausted. *)
Fixpoint extraList (a : list any) : string :=
  match a with
  | [] => ""
  | [x] => typedValue x
  | x :: rest => typedValue x ++ ", " ++ extraList rest
  end.

Definition extra (a : list any) : string :=
  match a with
  | [] => ""
  | _ => "%!(EXTRA " ++ extraList a ++ ")"
  end.

(** [fmt.Sprintf] for the directives this package writes: [%s], [%v] and
    [%%], without flags, width or precision.  [supported] below delimits
    that fragment; the format strings of [service.go] all lie in it. *)
Fixpoint Sprintf (format : string) (a : list any) : string :=
  match format with
  | EmptyString => extra a
  | String "%"%char rest =>
      match rest with
      | EmptyString => "%!(NOVERB)" ++ extra a
      | String "%"%char rest' => String "%"%char (Sprintf rest' a)
      | String verb rest' =>
          match a with
          | [] => "%!" ++ String verb ("(MISSING)" ++ Sprintf rest' [])
          | x :: a' => printArg verb x ++ Sprintf rest' a'
          end
      end
  | String c rest => String c (Sprintf rest a)
  end.

(** Every [%] of the format starts one of [%s], [%v], [%%]. *)
Fixpoint supported (format : string) : bool :=
  match format with
  | EmptyString => true
  | String "%"%char rest =>
      match rest with
      | EmptyString => false
      | String c rest' =>
          (Ascii.eqb c "s" || Ascii.eqb c "v" || Ascii.eqb c "%")%char
          && supported rest'
      end
  | String _ rest => supported rest
  end.

End Fmt.

(** ** Contexts *)

(** The contexts of package [context] that carry values: the empty context
    ([context.Background()], [context.TODO()]) and [context.WithValue]
    nodes.  A node's key is a non-nil comparable value; its value may be
    nil. *)
Inductive Context : Type :=
| emptyCtx
| valueCtx (parent : Context) (key val : any).

(** [(c Context).Value(key)]: the value of the innermost node whose key
    equals [key], or nil. *)
Fixpoint ctxValue (c : Context) (key : any) : any :=
  match c with
  | emptyCtx => AnyNil
  | valueCtx parent k v => if any_eqb k key then v else ctxValue parent key
  end.

(** ** Runs: the standard logger and panics *)

Inductive outcome (A : Type) : Type :=
| Returned (a : A)
| Panicked (reason : string).
Arguments Returned {A} a.
Arguments Panicked {A} reason.

(** The records written to the standard logger so far. *)
Definition Sink : Type := list string.

Definition M (A : Type) : Type := Sink -> outcome A * Sink.

Definition ret {A} (a : A) : M A := fun out => (Returned a, out).

Definition bind {A B} (m : M A) (k : A -> M B) : M B :=
  fun out =>
    match m out with
    | (Returned a, out') => k a out'
    | (Panicked r, out') => (Panicked r, out')
    end.

Definition panic {A} (reason : string) : M A := fun out => (Panicked reason, out).

Notation "x <- m ;; k" := (bind m (fun x => k))
  (at level 61, m at next level, right associativity).
Notation "m ;;; k" := (bind m (fun _ => k))
  (at level 61, right associativity).

(** [log.Print(s)]: one record to the standard logger. *)
Definition log_Print (s : string) : M unit :=
  fun out => (Returned tt, (out ++ [s])%list).

(** [log.Printf(format, a...)]. *)
Definition log_Printf (format : string) (a : list any) : M unit :=
  log_Print (Fmt.Sprintf format a).

(** [ctx.Value(key)] on an interface value: a nil interface has no method
    to dispatch to. *)
Definition Value (ctx : option Context) (key : any) : M any :=
  match ctx with
  | None => panic "invalid memory address or nil pointer dereference"
  | Some c => ret (ctxValue c key)
  end.

(** [for i, x = range xs { st = body i x st }], from index [i]. *)
Fixpoint forRange {A St} (i : nat) (xs : list A)
         (body : nat -> A -> St -> M St) (st : St) : M St :=
  match xs with
  | [] => ret st
  | x :: xs' => st' <- body i x st ;; forRange (S i) xs' body st'
  end.

(** ** Slices *)

Definition slice : Type := option (list string).

(** [append(xs, x)]. *)
Definition append {A} (xs : list A) (x : A) : list A := (xs ++ [x])%list.

Definition len (s : slice) : nat :=
  match s with None => 0 | Some l => length l end.

(** The elements a [range] over the slice visits. *)
Definition elems (s : slice) : list string :=
  match s with None => [] | Some l => l end.

(** ** service.go *)

Definition ESC : ascii := "027"%char.

Definition colorReset : string := String ESC "[0m".
Definition colorRed : string := String ESC "[31m".
Definition colorGreen : string := String ESC "[32m".
Definition colorWhite : string := String ESC "[37m".

Record Service : Type := { contextKeys : slice }.

Definition NewLogger (contextKeys : slice) : M Service :=
  let service := {| contextKeys := contextKeys |} in
  (if (len contextKeys =? 0)%nat then
     log_Printf "[ft_logging] Initialized with no context extraction" []
   else
     keys <- forRange 0 (elems contextKeys)
               (fun i key keys =>
                  let keys := if (0 <? i)%nat then keys ++ ", " else keys in
                  ret (keys ++ key))
               "" ;;
     log_Printf "[ft_logging] Initialized with context keys: [%s]" [AnyString keys]) ;;;
  ret service.

Definition extractContextInfo (s : Service) (ctx : option Context) : M string :=
  if match ctx with None => true | Some _ => false end
     || (len (contextKeys s) =? 0)%nat
  then ret ""
  else
    parts <- forRange 0 (elems (contextKeys s))
               (fun _ key parts =>
                  value <- Value ctx (AnyString key) ;;
                  if negb (isNil value)
                  then ret (append parts (Fmt.Sprintf "%s=%v" [AnyString key; value]))
                  else ret parts)
               [] ;;
    if (length parts =? 0)%nat then ret ""
    else
      forRange 0 parts
        (fun i part result =>
           let result := if (0 <? i)%nat then result ++ ", " else result in
           ret (result ++ part))
        "".

Definition LogWithColor (s : Service) (ctx : option Context)
           (color level message : string) : M unit :=
  contextInfo <- extractContextInfo s ctx ;;
  let contextPart :=
    if negb (String.eqb contextInfo "")
    then Fmt.Sprintf " {%s}" [AnyString contextInfo]
    else "" in
  let formattedMsg :=
    Fmt.Sprintf "%s[%s]%s %s%s"
      [AnyString color; AnyString level; AnyString colorReset;
       AnyString message; AnyString contextPart] in
  log_Print formattedMsg.

Definition Info (s : Service) (ctx : option Context) (message : string) : M unit :=
  LogWithColor s ctx colorWhite "INFO" message.

Definition Success (s : Service) (ctx : option Context) (message : string) : M unit :=
  LogWithColor s ctx colorGreen "SUCCESS" message.

Definition Error (s : Service) (ctx : option Context) (message : string) : M unit :=
  LogWithColor s ctx colorRed "ERROR" message.

(** [type Logger interface]: the three logging methods. *)
Class Logger (L : Type) : Type := {
  logInfo : L -> option Context -> string -> M unit;
  logSuccess : L -> option Context -> string -> M unit;
  logError : L -> option Context -> string -> M unit
}.

(** [*Service] implements [Logger]; [NewLogger] returns it as such. *)
#[export] Instance Service_Logger : Logger Service := {
  logInfo := Info;
  logSuccess := Success;
  logError := Error
}.

(** The three severities, and the method of the interface for each. *)
Inductive Severity : Type := SevInfo | SevSuccess | SevError.

Definition logOp {L : Type} `{Logger L} (sev : Severity)
  : L -> option Context -> string -> M unit :=
  match sev with
  | SevInfo => logInfo
  | SevSuccess => logSuccess
  | SevError => logError
  end.

Definition colorOf (sev : Severity) : string :=
  match sev with
  | SevInfo => colorWhite
  | SevSuccess => colorGreen
  | SevError => colorRed
  end.

Definition levelOf (sev : Severity) : string :=
  match sev with
  | SevInfo => "INFO"
  | SevSuccess => "SUCCESS"
  | SevError => "ERROR"
  end.

(** ** The behaviour the specification describes *)

(** [C[k]]: the lookup of key [k]; nothing is defined in an absent context. *)
Definition lookup (ctx : option Context) (k : string) : any :=
  match ctx with
  | None => AnyNil
  | Some c => ctxValue c (AnyString k)
  end.

Definition defined (ctx : option Context) (k : string) : bool :=
  negb (isNil (lookup ctx k)).

(** [key=value], the value in its natural textual representation. *)
Definition pairOf (ctx : option Context) (k : string) : string :=
  k ++ "=" ++ Fmt.formatV (lookup ctx k).

(** The configured keys that resolve, in configured order. *)
Definition resolvedKeys (K : list string) (ctx : option Context) : list string :=
  filter (defined ctx) K.

Definition contextPairs (K : list string) (ctx : option Context) : list string :=
  map (pairOf ctx) (resolvedKeys K ctx).

Definition contextSection (K : list string) (ctx : option Context) : string :=
  String.concat ", " (contextPairs K ctx).

(** [<color>[<LEVEL>]<reset> ] : what precedes the message. *)
Definition header (color level : string) : string :=
  color ++ "[" ++ level ++ "]" ++ colorReset ++ " ".

(** The line of the Line Formatter, from the extractor result [info]. *)
Definition lineOf (color level message info : string) : string :=
  header color level ++ message ++
  (if String.eqb info "" then "" else " {" ++ info ++ "}").

(** The character [c] occurs in [s]. *)
Fixpoint occurs (c : ascii) (s : string) : bool :=
  match s with
  | EmptyString => false
  | String d rest => Ascii.eqb c d || occurs c rest
  end.

(** The last character of [s], if any. *)
Fixpoint lastChar (s : string) : option ascii :=
  match s with
  | EmptyString => None
  | String c EmptyString => Some c
  | String _ rest => lastChar rest
  end.

(** ** Loop bodies and sample data *)

(** The body of the two joining loops ([keys += ...] in [NewLogger],
    [result += ...] in [extractContextInfo]). *)
Definition joinBody (i : nat) (part result : string) : M string :=
  let result := if (0 <? i)%nat then result ++ ", " else result in
  ret (result ++ part).

(** The body of the collecting loop of [extractContextInfo]. *)
Definition collectBody (ctx : option Context) (_ : nat) (key : string)
           (parts : list string) : M (list string) :=
  value <- Value ctx (AnyString key) ;;
  if negb (isNil value)
  then ret (append parts (Fmt.Sprintf "%s=%v" [AnyString key; value]))
  else ret parts.

(** [<color>[<LEVEL>]<reset> <message>]: the line without a context section. *)
Definition plainLine (sev : Severity) (message : string) : string :=
  colorOf sev ++ "[" ++ levelOf sev ++ "]" ++ colorReset ++ " " ++ message.

(** The context of the specification's scenarios. *)
Definition ctxRequestUser : Context :=
  valueCtx (valueCtx emptyCtx (AnyString "request_id") (AnyString "abc123"))
           (AnyString "user_id") (AnyString "user-456").

(** ** Notions for further properties of [service.go] *)

(** No node of the context has a key of dynamic type [string]. *)
Fixpoint noStringKeys (c : Context) : bool :=
  match c with
  | emptyCtx => true
  | valueCtx parent k _ =>
      match k with AnyString _ => false | _ => true end && noStringKeys parent
  end.

(** Two extractor results put side by side, separated when both are there. *)
Definition joinSections (a b : string) : string :=
  if String.eqb a "" then b
  else if String.eqb b "" then a
  else a ++ ", " ++ b.

(** [strings.Contains(s, substr)]: [substr] starts at some index of [s]. *)
Fixpoint Contains (s substr : string) : bool :=
  String.prefix substr s
  || match s with
     | EmptyString => false
     | String _ rest => Contains rest substr
     end.

(** ** The summary printer of the tests *)

Module Harness.

Definition LF : string := String "010"%char "".

(** Go's [int] on 64-bit targets: two's complement wrap-around. *)
Definition maxInt : Z := (2 ^ 63 - 1)%Z.

Definition wrapInt (z : Z) : Z := ((z + 2 ^ 63) mod 2 ^ 64 - 2 ^ 63)%Z.

(** [x++] on an [int]. *)
Definition incr (z : Z) : Z := wrapInt (z + 1).

(** The summary printer also writes [%d]. *)
Definition printArg (verb : ascii) (v : any) : string :=
  match verb with
  | "d"%char => match v with AnyInt z => Fmt.itoa z | _ => Fmt.badVerb verb v end
  | _ => Fmt.printArg verb v
  end.

(** [fmt.Sprintf] as in [Fmt], with [%d]. *)
Fixpoint Sprintf (format : string) (a : list any) : string :=
  match format with
  | EmptyString => Fmt.extra a
  | String "%"%char rest =>
      match rest with
      | EmptyString => "%!(NOVERB)" ++ Fmt.extra a
      | String "%"%char rest' => String "%"%char (Sprintf rest' a)
      | String verb rest' =>
          match a with
          | [] => "%!" ++ String verb ("(MISSING)" ++ Sprintf rest' [])
          | x :: a' => printArg verb x ++ Sprintf rest' a'
          end
      end
  | String c rest => String c (Sprintf rest a)
  end.

(** [string(bytes.Repeat([]byte(b), count))]. *)
Fixpoint Repeat (b : string) (count : nat) : string :=
  match count with
  | O => ""
  | S n => b ++ Repeat b n
  end.

Record TestResult : Type := {
  Name : string;
  Passed : bool;
  Output : string;
  Error : string
}.

(** The package-level [testResults] and the bytes written to standard
    output.  The mutex only serialises access; runs here are sequential. *)
Record State : Type := {
  testResults : list TestResult;
  stdout : string
}.

(** [fmt.Println(s)] with one string operand. *)
Definition fmt_Println (s : string) (st : State) : State :=
  {| testResults := testResults st; stdout := stdout st ++ s ++ LF |}.

(** [fmt.Printf(format, a...)]. *)
Definition fmt_Printf (format : string) (a : list any) (st : State) : State :=
  {| testResults := testResults st; stdout := stdout st ++ Sprintf format a |}.

Definition recordTestResult (name : string) (passed : bool)
           (output err : string) (st : State) : State :=
  {| testResults :=
       append (testResults st)
         {| Name := name; Passed := passed; Output := output; Error := err |};
     stdout := stdout st |}.

Definition printTestSummary (st : State) : State :=
  let totalTests := Z.of_nat (length (testResults st)) in
  let '(passedTests, failedTests) :=
    fold_left
      (fun (counts : Z * Z) (result : TestResult) =>
         let '(passedTests, failedTests) := counts in
         if Passed result
         then (incr passedTests, failedTests)
         else (passedTests, incr failedTests))
      (testResults st) (0%Z, 0%Z) in
  let st := fmt_Println (LF ++ LF ++ Repeat "=" 60) st in
  let st := fmt_Println "                     TEST SUMMARY" st in
  let st := fmt_Println (Repeat "=" 60) st in
  let st :=
    fold_left
      (fun (st : State) (result : TestResult) =>
         if Passed result
         then fmt_Printf ("%s[SUCCESS]%s %s" ++ LF)
                [AnyString colorGreen; AnyString colorReset;
                 AnyString (Name result)] st
         else
           let st := fmt_Printf ("%s[FAIL]%s %s" ++ LF)
                       [AnyString colorRed; AnyString colorReset;
                        AnyString (Name result)] st in
           let st := if negb (String.eqb (Error result) "")
                     then fmt_Printf ("  Error: %s" ++ LF)
                            [AnyString (Error result)] st
                     else st in
           if negb (String.eqb (Output result) "")
           then fmt_Printf ("  Output:" ++ LF ++ "%s" ++ LF)
                  [AnyString (Output result)] st
           else st)
      (testResults st) st in
  let st := fmt_Println (Repeat "=" 60) st in
  let st := fmt_Printf ("Total:  %d tests" ++ LF) [AnyInt totalTests] st in
  let st := fmt_Printf ("%sPassed: %d tests%s" ++ LF)
              [AnyString colorGreen; AnyInt passedTests; AnyString colorReset] st in
  let st := if (0 <? failedTests)%Z
            then fmt_Printf ("%sFailed: %d tests%s" ++ LF)
                   [AnyString colorRed; AnyInt failedTests; AnyString colorReset] st
            else fmt_Printf ("Failed: %d tests" ++ LF) [AnyInt failedTests] st in
  fmt_Println (Repeat "=" 60) st.

(** The bodies of the counting loop and of the printing loop. *)
Definition countBody (counts : Z * Z) (result : TestResult) : Z * Z :=
  let '(passedTests, failedTests) := counts in
  if Passed result
  then (incr passedTests, failedTests)
  else (passedTests, incr failedTests).

Definition printBody (st : State) (result : TestResult) : State :=
  if Passed result
  then fmt_Printf ("%s[SUCCESS]%s %s" ++ LF)
         [AnyString colorGreen; AnyString colorReset;
          AnyString (Name result)] st
  else
    let st := fmt_Printf ("%s[FAIL]%s %s" ++ LF)
                [AnyString colorRed; AnyString colorReset;
                 AnyString (Name result)] st in
    let st := if negb (String.eqb (Error result) "")
              then fmt_Printf ("  Error: %s" ++ LF)
                     [AnyString (Error result)] st
              else st in
    if negb (String.eqb (Output result) "")
    then fmt_Printf ("  Output:" ++ LF ++ "%s" ++ LF)
           [AnyString (Output result)] st
    else st.

(** The rule of sixty [=]. *)
Definition rule : string := Repeat "=" 60.

(** What the summary shows for one result. *)
Definition resultText (r : TestResult) : string :=
  if Passed r
  then colorGreen ++ "[SUCCESS]" ++ colorReset ++ " " ++ Name r ++ LF
  else colorRed ++ "[FAIL]" ++ colorReset ++ " " ++ Name r ++ LF
       ++ (if String.eqb (Error r) "" then "" else "  Error: " ++ Error r ++ LF)
       ++ (if String.eqb (Output r) "" then ""
           else "  Output:" ++ LF ++ Output r ++ LF).

(** The number of results that passed, and of those that did not. *)
Definition passedCount (rs : list TestResult) : nat :=
  length (filter Passed rs).

Definition failedCount (rs : list TestResult) : nat :=
  length (filter (fun r => negb (Passed r)) rs).

(** The whole summary for the recorded results. *)
Definition summaryText (rs : list TestResult) : string :=
  LF ++ LF ++ rule ++ LF
  ++ "                     TEST SUMMARY" ++ LF
  ++ rule ++ LF
  ++ fold_right String.append "" (map resultText rs)
  ++ rule ++ LF
  ++ "Total:  " ++ Fmt.itoa (Z.of_nat (length rs)) ++ " tests" ++ LF
  ++ colorGreen ++ "Passed: " ++ Fmt.itoa (Z.of_nat (passedCount rs))
  ++ " tests" ++ colorReset ++ LF
  ++ (if (0 <? failedCount rs)%nat
      then colorRed ++ "Failed: " ++ Fmt.itoa (Z.of_nat (failedCount rs))
           ++ " tests" ++ colorReset ++ LF
      else "Failed: 0 tests" ++ LF)
  ++ rule ++ LF.

End Harness.

(** ** Strings *)

Lemma append_nil_r (s : string) : s ++ "" = s.
Proof. induction s as [|c s IH]; simpl; [reflexivity | now rewrite IH]. Qed.

Lemma append_assoc (a b c : string) : (a ++ b) ++ c = a ++ b ++ c.
Proof. induction a as [|x a IH]; simpl; [reflexivity | now rewrite IH]. Qed.

Lemma append_eq_nil (a b : string) : a ++ b = "" -> a = "" /\ b = "".
Proof. destruct a; simpl; [auto | discriminate]. Qed.

Lemma occurs_append (c : ascii) (a b : string) :
  occurs c (a ++ b) = occurs c a || occurs c b.
Proof.
  induction a as [|x a IH]; simpl; [reflexivity|].
  now rewrite IH, orb_assoc.
Qed.

Lemma lastChar_append (a b : string) :
  lastChar (a ++ b)
  = match lastChar b with Some c => Some c | None => lastChar a end.
Proof.
  induction a as [|x a IH]; simpl.
  - now destruct (lastChar b).
  - destruct a as [|y a].
    + simpl. destruct b as [|z b]; [reflexivity|].
      destruct (lastChar (String z b)) eqn:E; [reflexivity|].
      exfalso. clear -E. revert z E.
      induction b as [|w b IHb]; intros z E; [discriminate|].
      exact (IHb w E).
    + simpl in IH |- *. exact IH.
Qed.

(** ** The format strings of the package *)

Lemma formats_supported :
  Fmt.supported "[ft_logging] Initialized with no context extraction" = true /\
  Fmt.supported "[ft_logging] Initialized with context keys: [%s]" = true /\
  Fmt.supported " {%s}" = true /\
  Fmt.supported "%s[%s]%s %s%s" = true /\
  Fmt.supported "%s=%v" = true.
Proof. repeat split; reflexivity. Qed.

Lemma Sprintf_pair (key : string) (value : any) :
  Fmt.Sprintf "%s=%v" [AnyString key; value] = key ++ "=" ++ Fmt.formatV value.
Proof. simpl. now rewrite append_nil_r. Qed.

Lemma Sprintf_keys (keys : string) :
  Fmt.Sprintf "[ft_logging] Initialized with context keys: [%s]" [AnyString keys]
  = "[ft_logging] Initialized with context keys: [" ++ keys ++ "]".
Proof. reflexivity. Qed.

Lemma Sprintf_line (color level message contextPart : string) :
  Fmt.Sprintf "%s[%s]%s %s%s"
    [AnyString color; AnyString level; AnyString colorReset;
     AnyString message; AnyString contextPart]
  = header color level ++ message ++ contextPart.
Proof.
  unfold header. simpl. rewrite append_nil_r.
  rewrite !append_assoc. simpl. rewrite !append_assoc. reflexivity.
Qed.

(** ** The loops *)

Lemma join_loop_tail (xs : list string) :
  forall (x acc : string) (i : nat) (out : Sink),
    forRange (S i) xs joinBody (acc ++ x) out
    = (Returned (acc ++ String.concat ", " (x :: xs)), out).
Proof.
  induction xs as [|y ys IH]; intros x acc i out.
  - reflexivity.
  - cbn [forRange]. unfold bind, joinBody at 1, ret at 1.
    cbn [Nat.ltb Nat.leb].
    replace (((acc ++ x) ++ ", ") ++ y) with ((acc ++ x ++ ", ") ++ y)
      by now rewrite !append_assoc.
    rewrite IH. cbn [String.concat]. now rewrite !append_assoc.
Qed.

Lemma join_loop (xs : list string) (out : Sink) :
  forRange 0 xs joinBody "" out = (Returned (String.concat ", " xs), out).
Proof.
  destruct xs as [|x xs]; [reflexivity|].
  cbn [forRange]. unfold bind, joinBody at 1, ret at 1.
  cbn [Nat.ltb Nat.leb].
  change ("" ++ x) with ("" ++ x).
  rewrite (join_loop_tail xs x "" 0 out). reflexivity.
Qed.

Lemma collect_loop (c : Context) (K : list string) :
  forall (i : nat) (acc : list string) (out : Sink),
    forRange i K (collectBody (Some c)) acc out
    = (Returned (acc ++ contextPairs K (Some c))%list, out).
Proof.
  induction K as [|k K IH]; intros i acc out.
  - cbn. now rewrite app_nil_r.
  - cbn [forRange]. unfold bind at 1, collectBody at 1.
    unfold Value, bind, ret at 1.
    unfold contextPairs, resolvedKeys. cbn [filter].
    unfold defined at 1. cbn [lookup].
    destruct (isNil (ctxValue c (AnyString k))) eqn:E; cbn [negb].
    + unfold ret at 1. rewrite IH. reflexivity.
    + unfold ret at 1. rewrite IH. unfold append.
      rewrite Sprintf_pair, <- app_assoc. reflexivity.
Qed.

Lemma resolvedKeys_nil_ctx (K : list string) : resolvedKeys K None = [].
Proof. induction K as [|k K IH]; [reflexivity | exact IH]. Qed.

Lemma contextSection_nil_ctx (K : list string) : contextSection K None = "".
Proof. unfold contextSection, contextPairs. now rewrite resolvedKeys_nil_ctx. Qed.

Lemma extractContextInfo_run (s : Service) (ctx : option Context) (out : Sink) :
  extractContextInfo s ctx out
  = (Returned (contextSection (elems (contextKeys s)) ctx), out).
Proof.
  unfold extractContextInfo.
  destruct ctx as [c|]; cbn [orb].
  - destruct s as [[K|]]; cbn [contextKeys len elems].
    + destruct K as [|k K]; [reflexivity|].
      cbn [length Nat.eqb].
      change (bind (forRange 0 (k :: K) (collectBody (Some c)) [])
                (fun parts => if (length parts =? 0)%nat then ret ""
                              else forRange 0 parts joinBody "") out
              = (Returned (contextSection (k :: K) (Some c)), out)).
      unfold bind. rewrite collect_loop. cbn [app].
      unfold contextSection.
      destruct (contextPairs (k :: K) (Some c)) as [|p ps] eqn:E.
      * reflexivity.
      * cbn [length Nat.eqb]. apply join_loop.
    + reflexivity.
  - now rewrite contextSection_nil_ctx.
Qed.

Lemma LogWithColor_run (s : Service) (ctx : option Context)
      (color level message : string) (out : Sink) :
  LogWithColor s ctx color level message out
  = (Returned tt,
     (out ++ [lineOf color level message
                (contextSection (elems (contextKeys s)) ctx)])%list).
Proof.
  unfold LogWithColor, bind. rewrite extractContextInfo_run.
  unfold log_Print, lineOf. rewrite Sprintf_line.
  destruct (String.eqb _ ""); reflexivity.
Qed.

Lemma logOp_run (sev : Severity) (s : Service) (ctx : option Context)
      (message : string) (out : Sink) :
  logOp sev s ctx message out
  = (Returned tt,
     (out ++ [lineOf (colorOf sev) (levelOf sev) message
                (contextSection (elems (contextKeys s)) ctx)])%list).
Proof. destruct sev; apply LogWithColor_run. Qed.

Lemma NewLogger_run (K : slice) (out : Sink) :
  NewLogger K out
  = (Returned {| contextKeys := K |},
     (out ++ [if (len K =? 0)%nat
              then "[ft_logging] Initialized with no context extraction"
              else ("[ft_logging] Initialized with context keys: ["
                    ++ String.concat ", " (elems K) ++ "]")%string])%list).
Proof.
  unfold NewLogger.
  destruct (len K =? 0)%nat.
  - reflexivity.
  - change (bind (bind (forRange 0 (elems K) joinBody "")
                    (fun keys => log_Printf
                       "[ft_logging] Initialized with context keys: [%s]"
                       [AnyString keys]))
              (fun _ => ret {| contextKeys := K |}) out = 
            (Returned {| contextKeys := K |},
             (out ++ [("[ft_logging] Initialized with context keys: ["
                       ++ String.concat ", " (elems K) ++ "]")%string])%list)).
    unfold bind. rewrite join_loop. unfold log_Printf, log_Print.
    rewrite Sprintf_keys. reflexivity.
Qed.

(** ** Pairs and sections *)

Lemma lineOf_plain (sev : Severity) (message info : string) :
  lineOf (colorOf sev) (levelOf sev) message info
  = plainLine sev message ++ (if String.eqb info "" then "" else " {" ++ info ++ "}").
Proof. unfold lineOf, header, plainLine. now rewrite !append_assoc. Qed.

Lemma pairOf_not_empty (ctx : option Context) (k : string) : pairOf ctx k <> "".
Proof.
  unfold pairOf. intros H.
  apply append_eq_nil in H. destruct H as [_ H]. discriminate H.
Qed.

Lemma concat_cons_not_empty (sep x : string) (xs : list string) :
  x <> "" -> String.concat sep (x :: xs) <> "".
Proof.
  intros Hx H. apply Hx.
  destruct xs as [|y ys]; cbn [String.concat] in H; [exact H|].
  now apply append_eq_nil in H.
Qed.

Lemma contextSection_resolved (K : list string) (ctx : option Context) :
  String.eqb (contextSection K ctx) ""
  = match resolvedKeys K ctx with [] => true | _ => false end.
Proof.
  unfold contextSection, contextPairs.
  destruct (resolvedKeys K ctx) as [|k ks]; [reflexivity|].
  cbn [map]. apply String.eqb_neq.
  apply concat_cons_not_empty, pairOf_not_empty.
Qed.

Lemma resolvedKeys_app (K1 K2 : list string) (ctx : option Context) :
  resolvedKeys (K1 ++ K2) ctx = (resolvedKeys K1 ctx ++ resolvedKeys K2 ctx)%list.
Proof. apply filter_app. Qed.

Lemma contextPairs_at (K1 K2 : list string) (k : string) (ctx : option Context) :
  defined ctx k = true ->
  contextPairs (K1 ++ k :: K2) ctx
  = (contextPairs K1 ctx ++ pairOf ctx k :: contextPairs K2 ctx)%list.
Proof.
  intros Hk. unfold contextPairs.
  rewrite resolvedKeys_app, map_app. unfold resolvedKeys at 2.
  cbn [filter]. rewrite Hk. reflexivity.
Qed.

Lemma resolvedKeys_In (K : list string) (ctx : option Context) (k : string) :
  In k (resolvedKeys K ctx) <-> In k K /\ lookup ctx k <> AnyNil.
Proof.
  unfold resolvedKeys. rewrite filter_In. unfold defined.
  destruct (lookup ctx k); cbn; intuition congruence.
Qed.

Lemma count_occ_resolved (K : list string) (ctx : option Context) (k : string) :
  defined ctx k = true ->
  count_occ string_dec (resolvedKeys K ctx) k = count_occ string_dec K k.
Proof.
  intros Hk. induction K as [|x K IH]; [reflexivity|].
  unfold resolvedKeys in *. cbn [filter count_occ].
  destruct (string_dec x k) as [->|Hne].
  - rewrite Hk. cbn [count_occ].
    destruct (string_dec k k); [now rewrite IH | contradiction].
  - destruct (defined ctx x); [|exact IH].
    cbn [count_occ]. destruct (string_dec x k); [contradiction | exact IH].
Qed.

Lemma count_occ_map_le (f : string -> string) (l : list string) (k : string) :
  count_occ string_dec l k <= count_occ string_dec (map f l) (f k).
Proof.
  induction l as [|x l IH]; [apply le_n|].
  cbn [map count_occ].
  destruct (string_dec x k) as [->|Hne].
  - destruct (string_dec (f k) (f k)); [lia | contradiction].
  - destruct (string_dec (f x) (f k)); lia.
Qed.

(** ** Scenarios of the specification *)

Example scenario_1 :
  (l <- NewLogger (Some ["request_id"; "user_id"]) ;;
   Info l (Some ctxRequestUser) "test message") []
  = (Returned tt,
     ["[ft_logging] Initialized with context keys: [request_id, user_id]";
      colorWhite ++ "[INFO]" ++ colorReset
        ++ " test message {request_id=abc123, user_id=user-456}"]).
Proof. reflexivity. Qed.

Example scenario_2 :
  Info {| contextKeys := Some ["request_id"; "user_id"; "trace_id"] |}
       (Some ctxRequestUser) "test message" []
  = (Returned tt,
     [colorWhite ++ "[INFO]" ++ colorReset
        ++ " test message {request_id=abc123, user_id=user-456}"]).
Proof. reflexivity. Qed.

Example scenario_3 :
  (l <- NewLogger None ;; Info l (Some ctxRequestUser) "no context values") []
  = (Returned tt,
     ["[ft_logging] Initialized with no context extraction";
      colorWhite ++ "[INFO]" ++ colorReset ++ " no context values"]).
Proof. reflexivity. Qed.

Example scenario_4 :
  Info {| contextKeys := Some ["request_id"] |} None "nil context" []
  = (Returned tt, [colorWhite ++ "[INFO]" ++ colorReset ++ " nil context"]).
Proof. reflexivity. Qed.

(** The pairs follow the configured order, not the order in which the
    context was built. *)
Example order_follows_keys :
  extractContextInfo {| contextKeys := Some ["user_id"; "request_id"] |}
    (Some ctxRequestUser) []
  = (Returned "user_id=user-456, request_id=abc123", []).
Proof. reflexivity. Qed.

(** Values of other types are rendered as [%v] renders them. *)
Example renders_int_and_bool :
  extractContextInfo {| contextKeys := Some ["attempt"; "cached"; "delta"] |}
    (Some (valueCtx (valueCtx (valueCtx emptyCtx
       (AnyString "attempt") (AnyInt 0))
       (AnyString "cached") (AnyBool true))
       (AnyString "delta") (AnyInt (-12)))) []
  = (Returned "attempt=0, cached=true, delta=-12", []).
Proof. reflexivity. Qed.

(** A nil value shadows the value of an outer node: the key does not resolve. *)
Example nil_value_shadows :
  extractContextInfo {| contextKeys := Some ["request_id"; "user_id"] |}
    (Some (valueCtx ctxRequestUser (AnyString "request_id") AnyNil)) []
  = (Returned "user_id=user-456", []).
Proof. reflexivity. Qed.

(** A key of another dynamic type is not the configured string key. *)
Example other_key_type :
  extractContextInfo {| contextKeys := Some ["7"] |}
    (Some (valueCtx emptyCtx (AnyInt 7) (AnyString "seven"))) []
  = (Returned "", []).
Proof. reflexivity. Qed.

(** ** The context section *)

(** C1. For every configured key list [K] and every context [ctx], the
    extractor returns the pairs [k=v] of exactly the keys [k] of [K] whose
    lookup is defined, in the order of [K], joined with [", "], and that is
    the content of the context section of the emitted line; a key resolves
    exactly when it is in [K] and its lookup is not nil, so a key of [K]
    absent from the context and a key of the context outside [K] yield no
    pair. *)
Theorem context_section_exact (sev : Severity) (K : slice) (ctx : option Context)
        (message : string) (out : Sink) :
  let info :=
    String.concat ", " (map (pairOf ctx) (filter (defined ctx) (elems K))) in
  extractContextInfo {| contextKeys := K |} ctx out = (Returned info, out)
  /\ logOp sev {| contextKeys := K |} ctx message out
     = (Returned tt,
        (out ++ [(plainLine sev message
                  ++ (if String.eqb info "" then "" else " {" ++ info ++ "}"))%string])%list)
  /\ (forall k, In k (resolvedKeys (elems K) ctx)
                <-> In k (elems K) /\ lookup ctx k <> AnyNil)
  /\ (forall p, In p (contextPairs (elems K) ctx)
                <-> exists k, In k (elems K) /\ lookup ctx k <> AnyNil
                              /\ p = k ++ "=" ++ Fmt.formatV (lookup ctx k)).
Proof.
  cbv zeta. split; [|split; [|split]].
  - apply extractContextInfo_run.
  - rewrite logOp_run, lineOf_plain. reflexivity.
  - intros k. apply resolvedKeys_In.
  - intros p. split.
    + intros Hp. unfold contextPairs in Hp. apply in_map_iff in Hp.
      destruct Hp as [k [Hk Hin]]. apply resolvedKeys_In in Hin.
      exists k. unfold pairOf in Hk. intuition auto.
    + intros [k [Hin [Hdef ->]]]. unfold contextPairs.
      apply in_map_iff. exists k. split; [reflexivity|].
      apply resolvedKeys_In. auto.
Qed.

(** ** The line *)

(** C2. For each of the three operations, every message and every context,
    the emitted line is the color code, the bracketed level, the reset
    code, one space, the message verbatim and, only when the extractor
    result is not empty, a space and the result between braces. *)
Theorem line_format (sev : Severity) (s : Service) (ctx : option Context)
        (message : string) (out : Sink) :
  exists info : string,
    extractContextInfo s ctx out = (Returned info, out)
    /\ logOp sev s ctx message out
       = (Returned tt,
          (out ++ [(colorOf sev ++ "[" ++ levelOf sev ++ "]" ++ colorReset
                    ++ " " ++ message
                    ++ (if String.eqb info "" then "" else " {" ++ info ++ "}"))%string])%list).
Proof.
  exists (contextSection (elems (contextKeys s)) ctx). split.
  - apply extractContextInfo_run.
  - rewrite logOp_run, lineOf_plain. unfold plainLine.
    now rewrite !append_assoc.
Qed.

Lemma occurs_plainLine (c : ascii) (sev : Severity) (message : string) :
  (c = "{" \/ c = "}")%char ->
  occurs c (plainLine sev message) = occurs c message.
Proof.
  intros Hc. unfold plainLine. rewrite !occurs_append.
  destruct Hc as [-> | ->]; destruct sev; reflexivity.
Qed.

Lemma lastChar_plainLine (sev : Severity) (message : string) :
  lastChar (plainLine sev message)
  = match lastChar message with Some c => Some c | None => Some " "%char end.
Proof.
  unfold plainLine. rewrite <- !append_assoc, lastChar_append.
  destruct (lastChar message); [reflexivity|].
  rewrite lastChar_append. reflexivity.
Qed.

(** C3, as stated, fails: with no configured keys the line still carries
    the braces of the message, and with an empty message it ends with the
    space that follows the reset code. *)
Lemma plain_line_counterexample :
  len (contextKeys {| contextKeys := None |}) = 0
  /\ Info {| contextKeys := None |} (Some emptyCtx) "{}" []
     = (Returned tt, [(colorWhite ++ "[INFO]" ++ colorReset ++ " {}")%string])
  /\ occurs "{" (colorWhite ++ "[INFO]" ++ colorReset ++ " {}") = true
  /\ occurs "}" (colorWhite ++ "[INFO]" ++ colorReset ++ " {}") = true
  /\ Info {| contextKeys := None |} (Some emptyCtx) "" []
     = (Returned tt, [(colorWhite ++ "[INFO]" ++ colorReset ++ " ")%string])
  /\ lastChar (colorWhite ++ "[INFO]" ++ colorReset ++ " ") = Some " "%char.
Proof. repeat split. Qed.

(** C3, amended. When the key list is empty or absent, or the context is
    absent, or no configured key resolves, the extractor returns the empty
    string and the emitted line is exactly
    [<color>[<LEVEL>]<reset> <message>]: nothing follows the message, so
    the line has a brace only where the message has one, and its last
    character is the last character of the message, or the space after the
    reset code when the message is empty. *)
Theorem plain_line_when_nothing_resolves (sev : Severity) (K : slice)
        (ctx : option Context) (message : string) (out : Sink) :
  len K = 0 \/ ctx = None \/ resolvedKeys (elems K) ctx = [] ->
  extractContextInfo {| contextKeys := K |} ctx out = (Returned "", out)
  /\ logOp sev {| contextKeys := K |} ctx message out
     = (Returned tt, (out ++ [plainLine sev message])%list)
  /\ occurs "{" (plainLine sev message) = occurs "{" message
  /\ occurs "}" (plainLine sev message) = occurs "}" message
  /\ lastChar (plainLine sev message)
     = match lastChar message with Some c => Some c | None => Some " "%char end.
Proof.
  intros H.
  assert (R : resolvedKeys (elems K) ctx = []).
  { destruct H as [H | [-> | H]].
    - destruct K as [[|k K]|]; [reflexivity | discriminate H | reflexivity].
    - apply resolvedKeys_nil_ctx.
    - exact H. }
  assert (E : contextSection (elems K) ctx = "").
  { unfold contextSection, contextPairs. now rewrite R. }
  split; [|split; [|split; [|split]]].
  - rewrite extractContextInfo_run. cbn [contextKeys]. now rewrite E.
  - rewrite logOp_run, lineOf_plain. cbn [contextKeys]. rewrite E.
    cbn [String.eqb]. now rewrite append_nil_r.
  - apply occurs_plainLine. now left.
  - apply occurs_plainLine. now right.
  - apply lastChar_plainLine.
Qed.

Lemma plain_line_when_nothing_resolves_witness :
  (len (Some ["request_id"; "user_id"]) = 0
   \/ Some (valueCtx emptyCtx (AnyString "trace_id") (AnyString "t-1")) = None
   \/ resolvedKeys (elems (Some ["request_id"; "user_id"]))
        (Some (valueCtx emptyCtx (AnyString "trace_id") (AnyString "t-1"))) = [])
  /\ logOp SevError {| contextKeys := Some ["request_id"; "user_id"] |}
       (Some (valueCtx emptyCtx (AnyString "trace_id") (AnyString "t-1")))
       "disk {full}" ["earlier"]
     = (Returned tt, ["earlier"; plainLine SevError "disk {full}"]).
Proof.
  split.
  - right; right; reflexivity.
  - apply (plain_line_when_nothing_resolves SevError
             (Some ["request_id"; "user_id"])
             (Some (valueCtx emptyCtx (AnyString "trace_id") (AnyString "t-1")))
             "disk {full}" ["earlier"]).
    right; right; reflexivity.
Defined.

(** ** Absent contexts and missing keys *)

(** Without the guard of [extractContextInfo], a lookup in an absent
    context would panic. *)
Example Value_nil_context_panics :
  Value None (AnyString "request_id") []
  = (Panicked "invalid memory address or nil pointer dereference", []).
Proof. reflexivity. Qed.

(** C4, as stated, fails: a context that lacks one configured key and
    holds another still yields a context section. *)
Lemma missing_key_counterexample :
  lookup (Some (valueCtx emptyCtx (AnyString "request_id") (AnyString "abc123")))
         "trace_id" = AnyNil
  /\ extractContextInfo {| contextKeys := Some ["request_id"; "trace_id"] |}
       (Some (valueCtx emptyCtx (AnyString "request_id") (AnyString "abc123"))) []
     = (Returned "request_id=abc123", [])
  /\ Info {| contextKeys := Some ["request_id"; "trace_id"] |}
       (Some (valueCtx emptyCtx (AnyString "request_id") (AnyString "abc123")))
       "lookup" []
     = (Returned tt,
        [(plainLine SevInfo "lookup" ++ " {request_id=abc123}")%string]).
Proof. repeat split. Qed.

(** C4, amended. For every logger, context and message, a logging
    operation returns, having written one line in which the message
    follows the header; with an absent context the extractor returns the
    empty string and the line has no context section; in general the keys
    that do not resolve are left out, and the line has a context section
    exactly when some configured key resolves. *)
Theorem logging_always_returns (sev : Severity) (K : slice)
        (ctx : option Context) (message : string) (out : Sink) :
  extractContextInfo {| contextKeys := K |} None out = (Returned "", out)
  /\ logOp sev {| contextKeys := K |} None message out
     = (Returned tt, (out ++ [plainLine sev message])%list)
  /\ extractContextInfo {| contextKeys := K |} ctx out
     = (Returned (String.concat ", "
                    (map (pairOf ctx) (resolvedKeys (elems K) ctx))), out)
  /\ logOp sev {| contextKeys := K |} ctx message out
     = (Returned tt,
        (out ++ [(plainLine sev message
                  ++ match resolvedKeys (elems K) ctx with
                     | [] => ""
                     | ks => " {" ++ String.concat ", " (map (pairOf ctx) ks) ++ "}"
                     end)%string])%list).
Proof.
  split; [|split; [|split]].
  - rewrite extractContextInfo_run. now rewrite contextSection_nil_ctx.
  - rewrite logOp_run, lineOf_plain, contextSection_nil_ctx.
    cbn [String.eqb]. now rewrite append_nil_r.
  - apply extractContextInfo_run.
  - rewrite logOp_run, lineOf_plain, contextSection_resolved.
    cbn [contextKeys]. unfold contextSection, contextPairs.
    destruct (resolvedKeys (elems K) ctx); reflexivity.
Qed.

(** ** Colors *)

(** C5. [Info] writes the white code and [[INFO]], [Success] the green
    code and [[SUCCESS]], [Error] the red code and [[ERROR]]; in each line
    the reset code comes directly after the bracketed level and is followed
    by a space, the message and, when there is one, the context section:
    it is not what ends the line. *)
Theorem severity_colors (s : Service) (ctx : option Context)
        (message : string) (out : Sink) :
  exists info : string,
    let rest := message ++ (if String.eqb info "" then "" else " {" ++ info ++ "}") in
    Info s ctx message out
    = (Returned tt,
       (out ++ [(String ESC "[37m" ++ "[INFO]" ++ String ESC "[0m"
                 ++ " " ++ rest)%string])%list)
    /\ Success s ctx message out
       = (Returned tt,
          (out ++ [(String ESC "[32m" ++ "[SUCCESS]" ++ String ESC "[0m"
                    ++ " " ++ rest)%string])%list)
    /\ Error s ctx message out
       = (Returned tt,
          (out ++ [(String ESC "[31m" ++ "[ERROR]" ++ String ESC "[0m"
                    ++ " " ++ rest)%string])%list).
Proof.
  exists (contextSection (elems (contextKeys s)) ctx).
  cbv zeta. split; [|split].
  - apply (logOp_run SevInfo).
  - apply (logOp_run SevSuccess).
  - apply (logOp_run SevError).
Qed.

(** ** Construction *)

(** C6. Construction with no configured keys (absent or empty list) writes
    exactly [[ft_logging] Initialized with no context extraction];
    construction with the keys [k :: ks] writes exactly
    [[ft_logging] Initialized with context keys: [...]] with the keys as
    passed, in order, repeated keys included, joined with [", "]; the
    logger stores the list as passed. *)
Theorem NewLogger_announcement (k : string) (ks : list string) (out : Sink) :
  NewLogger None out
  = (Returned {| contextKeys := None |},
     (out ++ ["[ft_logging] Initialized with no context extraction"])%list)
  /\ NewLogger (Some []) out
     = (Returned {| contextKeys := Some [] |},
        (out ++ ["[ft_logging] Initialized with no context extraction"])%list)
  /\ NewLogger (Some (k :: ks)) out
     = (Returned {| contextKeys := Some (k :: ks) |},
        (out ++ [("[ft_logging] Initialized with context keys: ["
                  ++ String.concat ", " (k :: ks) ++ "]")%string])%list).
Proof.
  split; [|split].
  - reflexivity.
  - reflexivity.
  - apply (NewLogger_run (Some (k :: ks))).
Qed.

Example NewLogger_keeps_duplicates :
  NewLogger (Some ["user_id"; "request_id"; "user_id"]) []
  = (Returned {| contextKeys := Some ["user_id"; "request_id"; "user_id"] |},
     ["[ft_logging] Initialized with context keys: [user_id, request_id, user_id]"]).
Proof. reflexivity. Qed.

(** C7. A logger built from the nil key list and a logger built from the
    empty key list behave alike: both constructions write the
    no-context-extraction announcement, and every logging call on either
    one, with any context and message, writes the same line, the extractor
    returning the empty string. *)
Theorem nil_and_empty_keys_agree (sev : Severity) (ctx : option Context)
        (message : string) (out out' : Sink) :
  exists absent present : Service,
    NewLogger None out
    = (Returned absent,
       (out ++ ["[ft_logging] Initialized with no context extraction"])%list)
    /\ NewLogger (Some []) out
       = (Returned present,
          (out ++ ["[ft_logging] Initialized with no context extraction"])%list)
    /\ extractContextInfo absent ctx out' = (Returned "", out')
    /\ extractContextInfo present ctx out' = (Returned "", out')
    /\ logOp sev absent ctx message out' = logOp sev present ctx message out'
    /\ logOp sev absent ctx message out'
       = (Returned tt, (out' ++ [plainLine sev message])%list).
Proof.
  exists {| contextKeys := None |}, {| contextKeys := Some [] |}.
  split; [reflexivity|]. split; [reflexivity|].
  split; [now destruct ctx|]. split; [now destruct ctx|].
  rewrite !logOp_run. cbn [contextKeys elems]. split; [reflexivity|].
  rewrite lineOf_plain. cbn. now rewrite append_nil_r.
Qed.

(** ** Values and repeated keys *)

(** C8. A configured key whose value in the context is not nil but renders
    as the empty string is present: its pair [key=] stands at the key's
    place among the pairs, and the line carries a context section. *)
Theorem empty_rendering_is_present (sev : Severity) (K1 K2 : list string)
        (k : string) (ctx : option Context) (message : string) (out : Sink) :
  lookup ctx k <> AnyNil ->
  Fmt.formatV (lookup ctx k) = "" ->
  In (k ++ "=")%string (contextPairs (K1 ++ k :: K2)%list ctx)
  /\ extractContextInfo {| contextKeys := Some (K1 ++ k :: K2)%list |} ctx out
     = (Returned (String.concat ", "
                    (contextPairs K1 ctx ++ (k ++ "=")%string :: contextPairs K2 ctx)%list), out)
  /\ logOp sev {| contextKeys := Some (K1 ++ k :: K2)%list |} ctx message out
     = (Returned tt,
        (out ++ [(plainLine sev message ++ " {"
                  ++ String.concat ", "
                       (contextPairs K1 ctx ++ (k ++ "=")%string :: contextPairs K2 ctx)%list
                  ++ "}")%string])%list).
Proof.
  intros Hdef Hfmt.
  assert (D : defined ctx k = true).
  { unfold defined. destruct (lookup ctx k); [contradiction | reflexivity ..]. }
  assert (P : pairOf ctx k = (k ++ "=")%string).
  { unfold pairOf. rewrite Hfmt. reflexivity. }
  assert (E : contextPairs (K1 ++ k :: K2)%list ctx
              = (contextPairs K1 ctx ++ (k ++ "=")%string :: contextPairs K2 ctx)%list).
  { rewrite (contextPairs_at K1 K2 k ctx D), P. reflexivity. }
  split; [|split].
  - rewrite E. apply in_or_app. right. now left.
  - rewrite extractContextInfo_run. cbn [contextKeys elems].
    unfold contextSection. now rewrite E.
  - rewrite logOp_run, lineOf_plain, contextSection_resolved.
    cbn [contextKeys elems]. unfold contextSection. rewrite E.
    rewrite resolvedKeys_app. unfold resolvedKeys at 2. cbn [filter].
    rewrite D. destruct (resolvedKeys K1 ctx); reflexivity.
Qed.

Lemma empty_rendering_is_present_witness :
  (lookup (Some (valueCtx emptyCtx (AnyString "note") (AnyString ""))) "note"
   <> AnyNil)
  /\ Fmt.formatV
       (lookup (Some (valueCtx emptyCtx (AnyString "note") (AnyString ""))) "note")
     = ""
  /\ logOp SevSuccess {| contextKeys := Some (["id"] ++ "note" :: ["user"])%list |}
       (Some (valueCtx emptyCtx (AnyString "note") (AnyString ""))) "saved" []
     = (Returned tt, [(plainLine SevSuccess "saved" ++ " {note=}")%string]).
Proof.
  split; [discriminate|]. split; [reflexivity|].
  apply (empty_rendering_is_present SevSuccess ["id"] ["user"] "note"
           (Some (valueCtx emptyCtx (AnyString "note") (AnyString "")))
           "saved" []).
  - discriminate.
  - reflexivity.
Defined.

(** C9. A logging operation is a function of its arguments alone: whatever
    was written before, the same operation on the same logger with the same
    context and message writes the same line, and two calls in a row write
    that line twice. *)
Theorem logging_deterministic (sev : Severity) (s : Service)
        (ctx : option Context) (message : string) (out out' : Sink) :
  exists line : string,
    logOp sev s ctx message out = (Returned tt, (out ++ [line])%list)
    /\ logOp sev s ctx message out' = (Returned tt, (out' ++ [line])%list)
    /\ (logOp sev s ctx message ;;; logOp sev s ctx message) out
       = (Returned tt, (out ++ [line; line])%list).
Proof.
  exists (lineOf (colorOf sev) (levelOf sev) message
            (contextSection (elems (contextKeys s)) ctx)).
  split; [apply logOp_run|]. split; [apply logOp_run|].
  unfold bind. rewrite !logOp_run, <- app_assoc. reflexivity.
Qed.

(** C10. The extractor does not de-duplicate: a key that resolves occurs
    among the resolved keys as often as in the configured list, the pairs
    are the renderings of the resolved keys one for one, each configured
    position of the key contributes its pair at that position, and so the
    pair occurs at least as often as the key is configured. *)
Theorem no_deduplication (K : list string) (k : string)
        (ctx : option Context) (out : Sink) :
  lookup ctx k <> AnyNil ->
  count_occ string_dec (resolvedKeys K ctx) k = count_occ string_dec K k
  /\ extractContextInfo {| contextKeys := Some K |} ctx out
     = (Returned (String.concat ", " (map (pairOf ctx) (resolvedKeys K ctx))), out)
  /\ (forall K1 K2, K = (K1 ++ k :: K2)%list ->
        contextPairs K ctx
        = (contextPairs K1 ctx ++ pairOf ctx k :: contextPairs K2 ctx)%list)
  /\ count_occ string_dec K k
     <= count_occ string_dec (contextPairs K ctx) (pairOf ctx k).
Proof.
  intros Hdef.
  assert (D : defined ctx k = true).
  { unfold defined. destruct (lookup ctx k); [contradiction | reflexivity ..]. }
  split; [|split; [|split]].
  - apply count_occ_resolved, D.
  - apply extractContextInfo_run.
  - intros K1 K2 ->. apply contextPairs_at, D.
  - unfold contextPairs. rewrite <- (count_occ_resolved K ctx k D).
    apply count_occ_map_le.
Qed.

Lemma no_deduplication_witness :
  lookup (Some ctxRequestUser) "user_id" <> AnyNil
  /\ count_occ string_dec
       (contextPairs ["user_id"; "request_id"; "user_id"] (Some ctxRequestUser))
       "user_id=user-456" >= 2
  /\ extractContextInfo
       {| contextKeys := Some ["user_id"; "request_id"; "user_id"] |}
       (Some ctxRequestUser) []
     = (Returned "user_id=user-456, request_id=abc123, user_id=user-456", []).
Proof.
  split; [discriminate|].
  destruct (no_deduplication ["user_id"; "request_id"; "user_id"] "user_id"
              (Some ctxRequestUser) []) as [_ [Hrun [_ Hcount]]].
  - discriminate.
  - split; [exact Hcount | exact Hrun].
Defined.

(** * Further properties of [service.go] *)

(** ** [LogWithColor] with any color and level *)

(** X1. [LogWithColor] is exported: for any color and level strings it
    writes one record, the color and the level copied as they are, the
    reset code after the bracketed level whatever the color, then the
    message and the context section as for the three named operations. *)
Theorem LogWithColor_any_level (s : Service) (ctx : option Context)
        (color level message : string) (out : Sink) :
  exists info : string,
    extractContextInfo s ctx out = (Returned info, out)
    /\ LogWithColor s ctx color level message out
       = (Returned tt,
          (out ++ [(color ++ "[" ++ level ++ "]" ++ colorReset ++ " " ++ message
                    ++ (if String.eqb info "" then "" else " {" ++ info ++ "}"))%string])%list).
Proof.
  exists (contextSection (elems (contextKeys s)) ctx). split.
  - apply extractContextInfo_run.
  - rewrite LogWithColor_run. unfold lineOf, header.
    now rewrite !append_assoc.
Qed.

(** ** Construction followed by logging *)

(** X2. A logger built by [NewLogger] extracts with the keys it was built
    with: construction followed by [Info], [Success] and [Error] writes
    four records, the announcement and one line per call, in call order. *)
Theorem construct_then_log (K : slice) (ctx : option Context)
        (m1 m2 m3 : string) (out : Sink) :
  (l <- NewLogger K ;;
   Info l ctx m1 ;;; Success l ctx m2 ;;; Error l ctx m3) out
  = (Returned tt,
     (out ++ [if (len K =? 0)%nat
              then "[ft_logging] Initialized with no context extraction"
              else ("[ft_logging] Initialized with context keys: ["
                    ++ String.concat ", " (elems K) ++ "]")%string;
              lineOf colorWhite "INFO" m1 (contextSection (elems K) ctx);
              lineOf colorGreen "SUCCESS" m2 (contextSection (elems K) ctx);
              lineOf colorRed "ERROR" m3 (contextSection (elems K) ctx)])%list).
Proof.
  unfold bind. rewrite NewLogger_run.
  unfold Info, Success, Error. rewrite !LogWithColor_run.
  cbn [contextKeys]. rewrite <- !app_assoc. reflexivity.
Qed.

(** ** What the line depends on *)

Lemma contextPairs_ext (K : list string) (c1 c2 : option Context) :
  (forall k, In k K -> lookup c1 k = lookup c2 k) ->
  contextPairs K c1 = contextPairs K c2.
Proof.
  induction K as [|x K IH]; intros H; [reflexivity|].
  assert (Hx : lookup c1 x = lookup c2 x) by (apply H; now left).
  assert (HK : contextPairs K c1 = contextPairs K c2).
  { apply IH. intros k Hk. apply H. now right. }
  assert (Hd : defined c1 x = defined c2 x) by (unfold defined; now rewrite Hx).
  assert (Hp : pairOf c1 x = pairOf c2 x) by (unfold pairOf; now rewrite Hx).
  unfold contextPairs, resolvedKeys in *. cbn [filter]. rewrite Hd.
  destruct (defined c2 x); [|exact HK].
  cbn [map]. now rewrite Hp, HK.
Qed.

(** X3. The line depends on the context only through the lookups of the
    configured keys: two contexts (absent ones included) that agree on
    every configured key give the same extractor result and the same
    line, whatever else they hold. *)
Theorem same_lookups_same_line (sev : Severity) (K : slice)
        (c1 c2 : option Context) (message : string) (out : Sink) :
  (forall k, In k (elems K) -> lookup c1 k = lookup c2 k) ->
  extractContextInfo {| contextKeys := K |} c1 out
  = extractContextInfo {| contextKeys := K |} c2 out
  /\ logOp sev {| contextKeys := K |} c1 message out
     = logOp sev {| contextKeys := K |} c2 message out.
Proof.
  intros H.
  assert (E : contextSection (elems K) c1 = contextSection (elems K) c2).
  { unfold contextSection. now rewrite (contextPairs_ext _ c1 c2 H). }
  split.
  - rewrite !extractContextInfo_run. cbn [contextKeys]. now rewrite E.
  - rewrite !logOp_run. cbn [contextKeys]. now rewrite E.
Qed.

Lemma same_lookups_same_line_witness :
  (forall k, In k (elems (Some ["request_id"])) ->
     lookup (Some ctxRequestUser) k
     = lookup (Some (valueCtx (valueCtx emptyCtx (AnyInt 1) (AnyBool true))
                       (AnyString "request_id") (AnyString "abc123"))) k)
  /\ logOp SevInfo {| contextKeys := Some ["request_id"] |}
       (Some ctxRequestUser) "ping" []
     = logOp SevInfo {| contextKeys := Some ["request_id"] |}
         (Some (valueCtx (valueCtx emptyCtx (AnyInt 1) (AnyBool true))
                  (AnyString "request_id") (AnyString "abc123"))) "ping" [].
Proof.
  assert (H : forall k, In k (elems (Some ["request_id"])) ->
     lookup (Some ctxRequestUser) k
     = lookup (Some (valueCtx (valueCtx emptyCtx (AnyInt 1) (AnyBool true))
                       (AnyString "request_id") (AnyString "abc123"))) k).
  { intros k [<- | []]. reflexivity. }
  split; [exact H|].
  apply (same_lookups_same_line SevInfo (Some ["request_id"])
           (Some ctxRequestUser)
           (Some (valueCtx (valueCtx emptyCtx (AnyInt 1) (AnyBool true))
                    (AnyString "request_id") (AnyString "abc123")))
           "ping" [] H).
Defined.

Lemma noStringKeys_lookup (c : Context) (k : string) :
  noStringKeys c = true -> ctxValue c (AnyString k) = AnyNil.
Proof.
  induction c as [|parent IH key val]; intros H; [reflexivity|].
  cbn [noStringKeys] in H. apply andb_true_iff in H. destruct H as [Hk Hp].
  cbn [ctxValue]. destruct key; try discriminate Hk; cbn [any_eqb]; auto.
Qed.

(** X4. The extractor looks values up under keys of type [string] only: a
    context all of whose keys have another dynamic type resolves none of
    the configured keys, and the line has no context section. *)
Theorem non_string_keys_never_resolve (sev : Severity) (K : slice) (c : Context)
        (message : string) (out : Sink) :
  noStringKeys c = true ->
  extractContextInfo {| contextKeys := K |} (Some c) out = (Returned "", out)
  /\ logOp sev {| contextKeys := K |} (Some c) message out
     = (Returned tt, (out ++ [plainLine sev message])%list).
Proof.
  intros H.
  assert (E : contextSection (elems K) (Some c) = "").
  { rewrite <- (contextSection_nil_ctx (elems K)).
    unfold contextSection. f_equal. apply contextPairs_ext.
    intros k _. cbn [lookup]. now apply noStringKeys_lookup. }
  split.
  - rewrite extractContextInfo_run. cbn [contextKeys]. now rewrite E.
  - rewrite logOp_run, lineOf_plain. cbn [contextKeys]. rewrite E.
    cbn [String.eqb]. now rewrite append_nil_r.
Qed.

Lemma non_string_keys_never_resolve_witness :
  noStringKeys (valueCtx (valueCtx emptyCtx (AnyInt 7) (AnyString "seven"))
                  (AnyBool true) (AnyString "yes")) = true
  /\ logOp SevError {| contextKeys := Some ["7"; "true"] |}
       (Some (valueCtx (valueCtx emptyCtx (AnyInt 7) (AnyString "seven"))
                (AnyBool true) (AnyString "yes"))) "typed keys" []
     = (Returned tt, [plainLine SevError "typed keys"]).
Proof.
  split; [reflexivity|].
  apply (non_string_keys_never_resolve SevError (Some ["7"; "true"])
           (valueCtx (valueCtx emptyCtx (AnyInt 7) (AnyString "seven"))
              (AnyBool true) (AnyString "yes")) "typed keys" []).
  reflexivity.
Defined.

(** ** Shadowing *)

Lemma lookup_valueCtx (c : Context) (k : string) (v : any) (x : string) :
  lookup (Some (valueCtx c (AnyString k) v)) x
  = if String.eqb k x then v else lookup (Some c) x.
Proof. reflexivity. Qed.

Lemma contextPairs_hidden (K : list string) (c : Context) (k : string) :
  contextPairs K (Some (valueCtx c (AnyString k) AnyNil))
  = contextPairs (remove string_dec k K) (Some c).
Proof.
  induction K as [|x K IH]; [reflexivity|].
  unfold contextPairs, resolvedKeys in *. cbn [remove filter].
  unfold defined at 1. rewrite lookup_valueCtx.
  destruct (string_dec k x) as [->|Hne].
  - rewrite String.eqb_refl. cbn [isNil negb]. exact IH.
  - apply String.eqb_neq in Hne. rewrite Hne.
    change (negb (isNil (lookup (Some c) x))) with (defined (Some c) x).
    cbn [filter]. destruct (defined (Some c) x); [|exact IH].
    cbn [map]. rewrite IH. f_equal.
    unfold pairOf. rewrite lookup_valueCtx, Hne. reflexivity.
Qed.

(** X5. A nil value stored under a configured key hides every outer value
    of that key: logging with [WithValue(c, k, nil)] writes what logging
    with [c] writes for a logger from whose key list [k] is struck out. *)
Theorem nil_value_hides_key (sev : Severity) (K : list string) (c : Context)
        (k message : string) (out : Sink) :
  extractContextInfo {| contextKeys := Some K |}
    (Some (valueCtx c (AnyString k) AnyNil)) out
  = extractContextInfo {| contextKeys := Some (remove string_dec k K) |}
      (Some c) out
  /\ logOp sev {| contextKeys := Some K |}
       (Some (valueCtx c (AnyString k) AnyNil)) message out
     = logOp sev {| contextKeys := Some (remove string_dec k K) |}
         (Some c) message out.
Proof.
  assert (E : contextSection K (Some (valueCtx c (AnyString k) AnyNil))
              = contextSection (remove string_dec k K) (Some c)).
  { unfold contextSection. now rewrite contextPairs_hidden. }
  split.
  - rewrite !extractContextInfo_run. cbn [contextKeys elems]. now rewrite E.
  - rewrite !logOp_run. cbn [contextKeys elems]. now rewrite E.
Qed.

(** X6. The innermost value of a key wins: with [WithValue(c, k, v)], [v]
    not nil, every configured occurrence of [k] renders as [k=v], whether or
    not [c] had a value for [k], and the other keys render as in [c]. *)
Theorem innermost_value_wins (K : list string) (c : Context) (k : string)
        (v : any) (out : Sink) :
  v <> AnyNil ->
  extractContextInfo {| contextKeys := Some K |}
    (Some (valueCtx c (AnyString k) v)) out
  = (Returned
       (String.concat ", "
          (map (fun x => if String.eqb k x
                         then (k ++ "=" ++ Fmt.formatV v)%string
                         else pairOf (Some c) x)
               (filter (fun x => String.eqb k x || defined (Some c) x) K))),
     out).
Proof.
  intros Hv. rewrite extractContextInfo_run. cbn [contextKeys elems].
  unfold contextSection. do 3 f_equal.
  induction K as [|x K IH]; [reflexivity|].
  unfold contextPairs, resolvedKeys in *. cbn [filter].
  unfold defined at 1. rewrite lookup_valueCtx.
  destruct (String.eqb k x) eqn:E.
  - apply String.eqb_eq in E. subst x.
    destruct v; [contradiction | ..]; cbn [isNil negb orb map];
      rewrite IH; f_equal;
      unfold pairOf; rewrite lookup_valueCtx, String.eqb_refl; reflexivity.
  - cbn [orb].
    change (negb (isNil (lookup (Some c) x))) with (defined (Some c) x).
    destruct (defined (Some c) x); [|exact IH].
    cbn [map]. rewrite IH, E. f_equal.
    unfold pairOf. rewrite lookup_valueCtx, E. reflexivity.
Qed.

Lemma innermost_value_wins_witness :
  AnyInt 2 <> AnyNil
  /\ extractContextInfo {| contextKeys := Some ["user_id"; "attempt"; "user_id"] |}
       (Some (valueCtx ctxRequestUser (AnyString "user_id") (AnyInt 2))) []
     = (Returned "user_id=2, user_id=2", []).
Proof.
  split; [discriminate|].
  apply (innermost_value_wins ["user_id"; "attempt"; "user_id"]
           ctxRequestUser "user_id" (AnyInt 2) []).
  discriminate.
Defined.

(** ** Key lists put together *)

Lemma concat_app_nonempty (l1 l2 : list string) :
  Forall (fun x => x <> "") l1 -> Forall (fun x => x <> "") l2 ->
  String.concat ", " (l1 ++ l2)
  = joinSections (String.concat ", " l1) (String.concat ", " l2).
Proof.
  intros H1 H2. induction H1 as [|x l1 Hx H1 IH].
  - reflexivity.
  - assert (Nx : String.eqb x "" = false) by now apply String.eqb_neq.
    destruct l1 as [|y l1].
    + cbn [app]. destruct l2 as [|z l2].
      * cbn [String.concat]. unfold joinSections. now rewrite Nx.
      * assert (Nz : String.concat ", " (z :: l2) <> "").
        { apply concat_cons_not_empty. now inversion H2. }
        apply String.eqb_neq in Nz.
        unfold joinSections. cbn [String.concat] in *. now rewrite Nx, Nz.
    + assert (Ny : String.concat ", " (y :: l1) <> "").
      { apply concat_cons_not_empty. now inversion H1. }
      assert (Nxy : String.concat ", " (x :: y :: l1) <> "")
        by now apply concat_cons_not_empty.
      apply String.eqb_neq in Ny, Nxy.
      change (String.concat ", " ((x :: y :: l1) ++ l2))
        with (x ++ ", " ++ String.concat ", " ((y :: l1) ++ l2)).
      rewrite IH. unfold joinSections. rewrite Ny, Nxy.
      destruct (String.eqb (String.concat ", " l2) ""); [reflexivity|].
      change (String.concat ", " (x :: y :: l1))
        with (x ++ ", " ++ String.concat ", " (y :: l1)).
      now rewrite !append_assoc.
Qed.

Lemma contextPairs_nonempty (K : list string) (ctx : option Context) :
  Forall (fun x => x <> "") (contextPairs K ctx).
Proof.
  unfold contextPairs. apply Forall_forall. intros p Hp.
  apply in_map_iff in Hp. destruct Hp as [k [<- _]]. apply pairOf_not_empty.
Qed.

(** X7. Extraction over a key list put together from two lists is the two
    extractions side by side: the result for [K1 ++ K2] is the result for
    [K1], then [", "] when neither is empty, then the result for [K2]. *)
Theorem extraction_of_appended_keys (K1 K2 : list string)
        (ctx : option Context) (out : Sink) :
  exists a b : string,
    extractContextInfo {| contextKeys := Some K1 |} ctx out = (Returned a, out)
    /\ extractContextInfo {| contextKeys := Some K2 |} ctx out = (Returned b, out)
    /\ extractContextInfo {| contextKeys := Some (K1 ++ K2)%list |} ctx out
       = (Returned (if String.eqb a "" then b
                    else if String.eqb b "" then a
                    else a ++ ", " ++ b), out).
Proof.
  exists (contextSection K1 ctx), (contextSection K2 ctx).
  rewrite !extractContextInfo_run. cbn [contextKeys elems].
  split; [reflexivity|]. split; [reflexivity|].
  f_equal. f_equal. unfold contextSection, contextPairs.
  rewrite resolvedKeys_app, map_app.
  apply concat_app_nonempty; apply contextPairs_nonempty.
Qed.

(** ** Telling the pairs apart *)


(** Without that condition two keys can render alike. *)
Example pair_text_collision :
  contextPairs ["a"; "a="]
    (Some (valueCtx (valueCtx emptyCtx (AnyString "a") (AnyString "=b"))
             (AnyString "a=") (AnyString "b")))
  = ["a==b"; "a==b"].
Proof. reflexivity. Qed.



(** ** What a reader of the log finds in it *)

Lemma prefix_append (a b : string) : String.prefix a (a ++ b) = true.
Proof.
  induction a as [|c a IH]; cbn; [now destruct b|].
  destruct (ascii_dec c c); [exact IH | contradiction].
Qed.

Lemma Contains_append (pre x post : string) :
  Contains (pre ++ x ++ post) x = true.
Proof.
  induction pre as [|c pre IH].
  - cbn [String.append]. destruct (x ++ post) eqn:E.
    + cbn [Contains]. rewrite <- E, prefix_append. reflexivity.
    + cbn [Contains]. rewrite <- E, prefix_append. reflexivity.
  - cbn [String.append Contains]. rewrite IH. apply orb_true_r.
Qed.

Lemma concat_split (sep p : string) (l : list string) :
  In p l -> exists a b, String.concat sep l = a ++ p ++ b.
Proof.
  induction l as [|x l IH]; intros H; [contradiction|].
  destruct H as [-> | H].
  - destruct l as [|y l].
    + exists "", "". cbn. now rewrite append_nil_r.
    + exists "", (sep ++ String.concat sep (y :: l)). reflexivity.
  - destruct (IH H) as [a [b E]].
    destruct l as [|y l]; [contradiction|].
    exists (x ++ sep ++ a), b.
    change (String.concat sep (x :: y :: l))
      with (x ++ sep ++ String.concat sep (y :: l)).
    rewrite E. now rewrite !append_assoc.
Qed.

(** Close a goal [Contains s x = true] by exhibiting [s] as
    [pre ++ x ++ post]. *)
Ltac contains_at pre x post :=
  match goal with
  | |- Contains ?s _ = true =>
      replace s with (pre ++ x ++ post) by (now rewrite !append_assoc);
      apply Contains_append
  end.

(** X9. Whatever the standard logger puts before and after the record
    (date and time, the final newline), the written text contains, in the
    sense of [strings.Contains], the color code of the operation, its
    bracketed level, the reset code and the message. *)
Theorem log_text_contains (sev : Severity) (s : Service) (ctx : option Context)
        (message before after : string) (out : Sink) :
  exists line : string,
    logOp sev s ctx message out = (Returned tt, (out ++ [line])%list)
    /\ Contains (before ++ line ++ after) (colorOf sev) = true
    /\ Contains (before ++ line ++ after) ("[" ++ levelOf sev ++ "]") = true
    /\ Contains (before ++ line ++ after) colorReset = true
    /\ Contains (before ++ line ++ after) message = true.
Proof.
  exists (lineOf (colorOf sev) (levelOf sev) message
            (contextSection (elems (contextKeys s)) ctx)).
  split; [apply logOp_run|].
  rewrite lineOf_plain. unfold plainLine.
  set (tail := if String.eqb (contextSection (elems (contextKeys s)) ctx) ""
               then ""
               else " {" ++ contextSection (elems (contextKeys s)) ctx ++ "}").
  split; [|split; [|split]].
  - contains_at before (colorOf sev)
      ("[" ++ levelOf sev ++ "]" ++ colorReset ++ " " ++ message ++ tail ++ after).
  - contains_at (before ++ colorOf sev) ("[" ++ levelOf sev ++ "]")
      (colorReset ++ " " ++ message ++ tail ++ after).
  - contains_at (before ++ colorOf sev ++ "[" ++ levelOf sev ++ "]") colorReset
      (" " ++ message ++ tail ++ after).
  - contains_at (before ++ colorOf sev ++ "[" ++ levelOf sev ++ "]"
                 ++ colorReset ++ " ") message (tail ++ after).
Qed.

(** X10. For every configured key that resolves, the written text
    contains [key=value], whatever surrounds the record. *)
Theorem log_text_contains_pair (sev : Severity) (K : slice)
        (ctx : option Context) (k message before after : string) (out : Sink) :
  In k (elems K) ->
  lookup ctx k <> AnyNil ->
  exists line : string,
    logOp sev {| contextKeys := K |} ctx message out
    = (Returned tt, (out ++ [line])%list)
    /\ Contains (before ++ line ++ after)
         (k ++ "=" ++ Fmt.formatV (lookup ctx k)) = true.
Proof.
  intros Hin Hdef.
  exists (lineOf (colorOf sev) (levelOf sev) message
            (contextSection (elems K) ctx)).
  split; [apply logOp_run|].
  rewrite lineOf_plain. unfold plainLine.
  assert (Hp : In (pairOf ctx k) (contextPairs (elems K) ctx)).
  { unfold contextPairs. apply in_map. apply resolvedKeys_In. auto. }
  destruct (concat_split ", " _ _ Hp) as [a [b E]].
  fold (contextSection (elems K) ctx) in E.
  assert (N : String.eqb (contextSection (elems K) ctx) "" = false).
  { rewrite contextSection_resolved.
    assert (Hr : In k (resolvedKeys (elems K) ctx))
      by (apply resolvedKeys_In; auto).
    destruct (resolvedKeys (elems K) ctx); [contradiction | reflexivity]. }
  rewrite N, E. fold (pairOf ctx k).
  contains_at (before ++ colorOf sev ++ "[" ++ levelOf sev ++ "]"
               ++ colorReset ++ " " ++ message ++ " {" ++ a)
              (pairOf ctx k) (b ++ "}" ++ after).
Qed.

Lemma log_text_contains_pair_witness :
  In "user_id" (elems (Some ["request_id"; "user_id"; "trace_id"]))
  /\ lookup (Some ctxRequestUser) "user_id" <> AnyNil
  /\ exists line : string,
       logOp SevInfo {| contextKeys := Some ["request_id"; "user_id"; "trace_id"] |}
         (Some ctxRequestUser) "test message" []
       = (Returned tt, [line])
       /\ Contains ("2009/11/10 23:00:00 " ++ line ++ Harness.LF)
            "user_id=user-456" = true.
Proof.
  split; [right; now left|]. split; [discriminate|].
  apply (log_text_contains_pair SevInfo
           (Some ["request_id"; "user_id"; "trace_id"]) (Some ctxRequestUser)
           "user_id" "test message" "2009/11/10 23:00:00 " Harness.LF []).
  - right; now left.
  - discriminate.
Defined.

(** ** Telling the severities apart *)

(** X11. Two different operations never write the same line: whatever
    the loggers, contexts and messages, the lines of two different
    severities differ, already in the color code they start with. *)
Theorem severities_never_collide (sev1 sev2 : Severity) (s1 s2 : Service)
        (c1 c2 : option Context) (m1 m2 : string) (out : Sink) :
  sev1 <> sev2 ->
  exists line1 line2 : string,
    logOp sev1 s1 c1 m1 out = (Returned tt, (out ++ [line1])%list)
    /\ logOp sev2 s2 c2 m2 out = (Returned tt, (out ++ [line2])%list)
    /\ line1 <> line2
    /\ substring 0 5 line1 = colorOf sev1
    /\ substring 0 5 line2 = colorOf sev2.
Proof.
  intros Hne.
  exists (lineOf (colorOf sev1) (levelOf sev1) m1
            (contextSection (elems (contextKeys s1)) c1)),
         (lineOf (colorOf sev2) (levelOf sev2) m2
            (contextSection (elems (contextKeys s2)) c2)).
  split; [apply logOp_run|]. split; [apply logOp_run|].
  split; [|split].
  - unfold lineOf, header.
    destruct sev1, sev2; try contradiction; cbn; discriminate.
  - destruct sev1; reflexivity.
  - destruct sev2; reflexivity.
Qed.

Lemma severities_never_collide_witness :
  SevInfo <> SevError
  /\ exists line1 line2 : string,
       logOp SevInfo {| contextKeys := None |} None "same text" []
       = (Returned tt, [line1])
       /\ logOp SevError {| contextKeys := None |} None "same text" []
          = (Returned tt, [line2])
       /\ line1 <> line2.
Proof.
  split; [discriminate|].
  destruct (severities_never_collide SevInfo SevError
              {| contextKeys := None |} {| contextKeys := None |}
              None None "same text" "same text" [])
    as [l1 [l2 [H1 [H2 [H3 _]]]]].
  - discriminate.
  - exists l1, l2. auto.
Defined.

(** * The summary printer *)

Lemma wrapInt_small (z : Z) :
  (- 2 ^ 63 <= z <= Harness.maxInt)%Z -> Harness.wrapInt z = z.
Proof.
  unfold Harness.wrapInt, Harness.maxInt. intros H.
  rewrite Z.mod_small by lia. lia.
Qed.

Lemma counts_add_up (rs : list Harness.TestResult) :
  Harness.passedCount rs + Harness.failedCount rs = length rs.
Proof.
  unfold Harness.passedCount, Harness.failedCount.
  induction rs as [|r rs IH]; [reflexivity|].
  cbn [filter length]. destruct (Harness.Passed r); cbn [negb length]; lia.
Qed.

Lemma count_loop (rs : list Harness.TestResult) :
  forall p f : Z,
    (0 <= p)%Z -> (0 <= f)%Z ->
    (p + f + Z.of_nat (length rs) <= Harness.maxInt)%Z ->
    fold_left Harness.countBody rs (p, f)
    = ((p + Z.of_nat (Harness.passedCount rs))%Z,
       (f + Z.of_nat (Harness.failedCount rs))%Z).
Proof.
  unfold Harness.passedCount, Harness.failedCount.
  induction rs as [|r rs IH]; intros p f Hp Hf Hb.
  - cbn. now rewrite !Z.add_0_r.
  - cbn [fold_left filter length] in *. unfold Harness.countBody at 2.
    unfold Harness.incr.
    destruct (Harness.Passed r); cbn [negb length].
    + rewrite wrapInt_small by (unfold Harness.maxInt in *; lia).
      rewrite IH by lia. f_equal. lia.
    + rewrite wrapInt_small by (unfold Harness.maxInt in *; lia).
      rewrite IH by lia. f_equal. lia.
Qed.

Lemma Sprintf_success (name : string) :
  Harness.Sprintf ("%s[SUCCESS]%s %s" ++ Harness.LF)
    [AnyString colorGreen; AnyString colorReset; AnyString name]
  = colorGreen ++ "[SUCCESS]" ++ colorReset ++ " " ++ name ++ Harness.LF.
Proof. reflexivity. Qed.

Lemma Sprintf_fail (name : string) :
  Harness.Sprintf ("%s[FAIL]%s %s" ++ Harness.LF)
    [AnyString colorRed; AnyString colorReset; AnyString name]
  = colorRed ++ "[FAIL]" ++ colorReset ++ " " ++ name ++ Harness.LF.
Proof. reflexivity. Qed.

Lemma Sprintf_error (err : string) :
  Harness.Sprintf ("  Error: %s" ++ Harness.LF) [AnyString err]
  = "  Error: " ++ err ++ Harness.LF.
Proof. reflexivity. Qed.

Lemma Sprintf_output (output : string) :
  Harness.Sprintf ("  Output:" ++ Harness.LF ++ "%s" ++ Harness.LF)
    [AnyString output]
  = "  Output:" ++ Harness.LF ++ output ++ Harness.LF.
Proof. reflexivity. Qed.

Lemma Sprintf_total (n : Z) :
  Harness.Sprintf ("Total:  %d tests" ++ Harness.LF) [AnyInt n]
  = "Total:  " ++ Fmt.itoa n ++ " tests" ++ Harness.LF.
Proof. reflexivity. Qed.

Lemma Sprintf_passed (n : Z) :
  Harness.Sprintf ("%sPassed: %d tests%s" ++ Harness.LF)
    [AnyString colorGreen; AnyInt n; AnyString colorReset]
  = colorGreen ++ "Passed: " ++ Fmt.itoa n ++ " tests" ++ colorReset
    ++ Harness.LF.
Proof. reflexivity. Qed.

Lemma Sprintf_failed_red (n : Z) :
  Harness.Sprintf ("%sFailed: %d tests%s" ++ Harness.LF)
    [AnyString colorRed; AnyInt n; AnyString colorReset]
  = colorRed ++ "Failed: " ++ Fmt.itoa n ++ " tests" ++ colorReset
    ++ Harness.LF.
Proof. reflexivity. Qed.

Lemma Sprintf_failed_plain (n : Z) :
  Harness.Sprintf ("Failed: %d tests" ++ Harness.LF) [AnyInt n]
  = "Failed: " ++ Fmt.itoa n ++ " tests" ++ Harness.LF.
Proof. reflexivity. Qed.

Lemma printBody_text (st : Harness.State) (r : Harness.TestResult) :
  Harness.printBody st r
  = {| Harness.testResults := Harness.testResults st;
       Harness.stdout := Harness.stdout st ++ Harness.resultText r |}.
Proof.
  unfold Harness.printBody, Harness.resultText, Harness.fmt_Printf.
  destruct (Harness.Passed r).
  - now rewrite Sprintf_success.
  - rewrite Sprintf_fail.
    destruct (String.eqb (Harness.Error r) "");
      destruct (String.eqb (Harness.Output r) "");
      cbn [negb Harness.testResults Harness.stdout];
      rewrite ?Sprintf_error, ?Sprintf_output; f_equal;
      rewrite ?append_assoc, ?append_nil_r; reflexivity.
Qed.

Lemma print_loop (rs : list Harness.TestResult) :
  forall st : Harness.State,
    fold_left Harness.printBody rs st
    = {| Harness.testResults := Harness.testResults st;
         Harness.stdout :=
           Harness.stdout st
           ++ fold_right String.append "" (map Harness.resultText rs) |}.
Proof.
  induction rs as [|r rs IH]; intros st.
  - cbn. rewrite append_nil_r. now destruct st.
  - cbn [fold_left map fold_right]. rewrite IH, printBody_text.
    cbn [Harness.testResults Harness.stdout]. now rewrite append_assoc.
Qed.

Lemma printTestSummary_run (st : Harness.State) :
  (Z.of_nat (length (Harness.testResults st)) <= Harness.maxInt)%Z ->
  Harness.printTestSummary st
  = {| Harness.testResults := Harness.testResults st;
       Harness.stdout :=
         Harness.stdout st ++ Harness.summaryText (Harness.testResults st) |}.
Proof.
  intros Hb. destruct st as [rs out]. cbn [Harness.testResults] in Hb.
  pose proof (count_loop rs 0 0 (Z.le_refl 0) (Z.le_refl 0) Hb) as Hc.
  cbn [Z.add] in Hc. unfold Harness.countBody in Hc.
  unfold Harness.printTestSummary. cbn [Harness.testResults].
  rewrite Hc.
  pose proof (print_loop rs) as Hp. unfold Harness.printBody in Hp.
  rewrite Hp.
  unfold Harness.fmt_Println, Harness.fmt_Printf.
  cbn [Harness.testResults Harness.stdout].
  rewrite Sprintf_total, Sprintf_passed.
  unfold Harness.summaryText, Harness.rule.
  destruct (Harness.failedCount rs) as [|n] eqn:F.
  - cbn [Z.of_nat Z.ltb Z.compare Nat.ltb Nat.leb Harness.testResults Harness.stdout].
    rewrite Sprintf_failed_plain. f_equal.
    rewrite !append_assoc. reflexivity.
  - assert (Hpos : (0 <? Z.of_nat (S n))%Z = true) by (apply Z.ltb_lt; lia).
    rewrite Hpos. cbn [Nat.ltb Nat.leb Harness.testResults Harness.stdout].
    rewrite Sprintf_failed_red. f_equal.
    rewrite !append_assoc. reflexivity.
Qed.

(** X12. When the results fit an [int], [printTestSummary] leaves the
    recorded results as they are and writes the summary: the banner, one
    block per result in recording order (a failed one with its error and
    its output when these are not empty), then the totals, where the
    number of tests is the number passed plus the number failed and the
    failed line is red only when some test failed. *)
Theorem printTestSummary_text (st : Harness.State) :
  (Z.of_nat (length (Harness.testResults st)) <= Harness.maxInt)%Z ->
  Harness.testResults (Harness.printTestSummary st) = Harness.testResults st
  /\ Harness.stdout (Harness.printTestSummary st)
     = Harness.stdout st ++ Harness.summaryText (Harness.testResults st)
  /\ Harness.passedCount (Harness.testResults st)
     + Harness.failedCount (Harness.testResults st)
     = length (Harness.testResults st).
Proof.
  intros Hb. rewrite (printTestSummary_run st Hb).
  split; [reflexivity|]. split; [reflexivity|]. apply counts_add_up.
Qed.

Lemma printTestSummary_text_witness :
  (Z.of_nat (length (Harness.testResults
      (Harness.recordTestResult "TestError" false "trace" "no red code"
         (Harness.recordTestResult "TestInfo" true "ok" ""
            {| Harness.testResults := []; Harness.stdout := "" |}))))
   <= Harness.maxInt)%Z
  /\ Harness.stdout
       (Harness.printTestSummary
          (Harness.recordTestResult "TestError" false "trace" "no red code"
             (Harness.recordTestResult "TestInfo" true "ok" ""
                {| Harness.testResults := []; Harness.stdout := "" |})))
     = Harness.summaryText
         [ {| Harness.Name := "TestInfo"; Harness.Passed := true;
              Harness.Output := "ok"; Harness.Error := "" |};
           {| Harness.Name := "TestError"; Harness.Passed := false;
              Harness.Output := "trace"; Harness.Error := "no red code" |} ].
Proof.
  split; [vm_compute; discriminate|].
  apply (printTestSummary_text
           (Harness.recordTestResult "TestError" false "trace" "no red code"
              (Harness.recordTestResult "TestInfo" true "ok" ""
                 {| Harness.testResults := []; Harness.stdout := "" |}))).
  vm_compute; discriminate.
Defined.

Lemma all_passed_counts (rs : list Harness.TestResult) :
  forallb Harness.Passed rs = true ->
  Harness.passedCount rs = length rs /\ Harness.failedCount rs = 0.
Proof.
  unfold Harness.passedCount, Harness.failedCount.
  induction rs as [|r rs IH]; intros H; [split; reflexivity|].
  cbn [forallb] in H. apply andb_true_iff in H. destruct H as [Hr H].
  cbn [filter]. rewrite Hr. cbn [negb length].
  destruct (IH H) as [-> ->]. split; reflexivity.
Qed.

Lemma all_passed_blocks (rs : list Harness.TestResult) :
  forallb Harness.Passed rs = true ->
  map Harness.resultText rs
  = map (fun r => colorGreen ++ "[SUCCESS]" ++ colorReset ++ " "
                  ++ Harness.Name r ++ Harness.LF) rs.
Proof.
  induction rs as [|r rs IH]; intros H; [reflexivity|].
  cbn [forallb] in H. apply andb_true_iff in H. destruct H as [Hr H].
  cbn [map]. rewrite (IH H). unfold Harness.resultText. now rewrite Hr.
Qed.

(** X13. When every recorded result passed, the summary has one green
    [[SUCCESS]] line per result, in recording order, no [[FAIL]] block,
    the number passed equal to the total, and the line
    [Failed: 0 tests] without color. *)
Theorem printTestSummary_all_passed (st : Harness.State) :
  (Z.of_nat (length (Harness.testResults st)) <= Harness.maxInt)%Z ->
  forallb Harness.Passed (Harness.testResults st) = true ->
  Harness.stdout (Harness.printTestSummary st)
  = Harness.stdout st
    ++ Harness.LF ++ Harness.LF ++ Harness.Repeat "=" 60 ++ Harness.LF
    ++ "                     TEST SUMMARY" ++ Harness.LF
    ++ Harness.Repeat "=" 60 ++ Harness.LF
    ++ fold_right String.append ""
         (map (fun r => colorGreen ++ "[SUCCESS]" ++ colorReset ++ " "
                        ++ Harness.Name r ++ Harness.LF)
              (Harness.testResults st))
    ++ Harness.Repeat "=" 60 ++ Harness.LF
    ++ "Total:  " ++ Fmt.itoa (Z.of_nat (length (Harness.testResults st)))
    ++ " tests" ++ Harness.LF
    ++ colorGreen ++ "Passed: "
    ++ Fmt.itoa (Z.of_nat (length (Harness.testResults st)))
    ++ " tests" ++ colorReset ++ Harness.LF
    ++ "Failed: 0 tests" ++ Harness.LF
    ++ Harness.Repeat "=" 60 ++ Harness.LF.
Proof.
  intros Hb Hall. rewrite (printTestSummary_run st Hb).
  cbn [Harness.stdout]. unfold Harness.summaryText, Harness.rule.
  destruct (all_passed_counts _ Hall) as [-> ->].
  rewrite (all_passed_blocks _ Hall). reflexivity.
Qed.

Lemma printTestSummary_all_passed_witness :
  (Z.of_nat (length (Harness.testResults
      (Harness.recordTestResult "TestInfo" true "ok" ""
         {| Harness.testResults := []; Harness.stdout := "go test" |})))
   <= Harness.maxInt)%Z
  /\ forallb Harness.Passed
       (Harness.testResults
          (Harness.recordTestResult "TestInfo" true "ok" ""
             {| Harness.testResults := []; Harness.stdout := "go test" |}))
     = true
  /\ Contains
       (Harness.stdout
          (Harness.printTestSummary
             (Harness.recordTestResult "TestInfo" true "ok" ""
                {| Harness.testResults := []; Harness.stdout := "go test" |})))
       "Failed: 0 tests" = true.
Proof.
  split; [vm_compute; discriminate|]. split; [reflexivity|].
  rewrite (printTestSummary_all_passed
             (Harness.recordTestResult "TestInfo" true "ok" ""
                {| Harness.testResults := []; Harness.stdout := "go test" |})).
  - reflexivity.
  - vm_compute; discriminate.
  - reflexivity.
Defined.
